(** * DTPublisher: a gated wrapper around [rospy.Publisher]

    Shallow embedding of
    [packages/duckietown/include/duckietown/dtpublisher.py].

    The class [DTPublisher] extends [rospy.Publisher].  The base class is
    external: it is taken as an interface ([RospyPublisher]) whose methods
    act on the inherited part of the object.  The methods of [DTPublisher]
    are embedded as computations in a state-and-exception monad over the
    object, which also logs every call the wrapper itself makes to the base
    class and to registered callbacks. *)

From Stdlib Require Import ZArith String List Bool Lia.
Import ListNotations.
Open Scope string_scope.
Open Scope list_scope.

(** ** Python values, exceptions and the two operators the class uses *)

(** The values the attributes [active] and [num_of_subscribers] hold. *)
Inductive PyVal : Type :=
| PyNone
| PyBool (b : bool)
| PyInt (n : Z).

(** [None > 0] is [False] in Python 2 and a [TypeError] in Python 3. *)
Inductive PyVersion : Type := Python2 | Python3.

Inductive Exn : Type :=
| AttributeError (attr : string)
| TypeError
| External (name : string).

(** Truth value of [x] in [if x:]. *)
Definition truthy (x : PyVal) : bool :=
  match x with
  | PyNone => false
  | PyBool b => b
  | PyInt n => negb (n =? 0)%Z
  end.

(** [x > 0]. *)
Definition gt_zero (v : PyVersion) (x : PyVal) : Exn + bool :=
  match x with
  | PyInt n => inr (0 <? n)%Z
  | PyBool b => inr b
  | PyNone => match v with Python2 => inr false | Python3 => inl TypeError end
  end.

(** ** The base class [rospy.Publisher] *)

(** What [DTPublisher] uses of its base class.  [Transport] is the state of
    the inherited part of the object, [Args] what [__init__] is given
    (its positional and keyword arguments) and [Msg] what [publish] is given.  A method returns
    [inl e] when it raises [e]. *)
Class RospyPublisher : Type := {
  Transport : Type;
  Args : Type;
  Msg : Type;
  super_init : Args -> Transport -> (Exn + unit) * Transport;
  super_publish : Msg -> Transport -> (Exn + unit) * Transport;
  get_num_connections : Transport -> Exn + Z
}.

(** Function objects stored in [subs_changed_callbacks], by identity. *)
Definition Callback : Type := nat.

(** Addresses of list objects. *)
Definition Ref : Type := nat.

(** The class object [rospy.SubscribeListener]. *)
Inductive PyClass : Type := SubscribeListener.

(** What the class attributes [peer_subscribe] and [peer_unsubscribe] of
    [rospy.SubscribeListener] hold: the method the class defines, or the bound
    method [self.cbChangeSubscribers]. *)
Inductive Handler : Type :=
| listener_default
| bound_cbChangeSubscribers.

(** What a callback is called with. *)
Inductive Argument : Type := Self.

(** The calls the wrapper makes, in the order it makes them, each with what
    it passes. *)
Inductive Call {B : RospyPublisher} : Type :=
| SuperInit (a : Args)
| SuperPublish (m : Msg)
| GetNumConnections
| Invoke (cb : Callback) (args : list Argument).

(** How a method ends.  [OutOfFuel] is the loop of [cbChangeSubscribers]
    stopped by the model before the list was exhausted. *)
Inductive Outcome (A : Type) : Type :=
| Returns (a : A)
| Raises (e : Exn)
| OutOfFuel.
Arguments Returns {A} a.
Arguments Raises {A} e.
Arguments OutOfFuel {A}.

Section Object.
Context {B : RospyPublisher}.

(** The object [self] and what it can reach.  An instance attribute is
    [None] until it is assigned ([rospy.Publisher] is taken to define none of
    the four names, so that reading one before its assignment is an
    [AttributeError]). *)
Record State : Type := mkState {
  active : option PyVal;
  num_of_subscribers : option PyVal;
  subs_changed_callbacks : option Ref;
  subscribe_listener : option PyClass;
  (** the inherited [rospy.Publisher] part *)
  base : Transport;
  (** list objects, and the next free address *)
  heap : Ref -> list Callback;
  next_ref : Ref;
  (** class attributes of [rospy.SubscribeListener] *)
  peer_subscribe : Handler;
  peer_unsubscribe : Handler
}.

Definition set_active (v : PyVal) (s : State) : State :=
  mkState (Some v) (num_of_subscribers s) (subs_changed_callbacks s)
    (subscribe_listener s) (base s) (heap s) (next_ref s)
    (peer_subscribe s) (peer_unsubscribe s).

Definition set_num_of_subscribers (v : PyVal) (s : State) : State :=
  mkState (active s) (Some v) (subs_changed_callbacks s)
    (subscribe_listener s) (base s) (heap s) (next_ref s)
    (peer_subscribe s) (peer_unsubscribe s).

Definition set_subs_changed_callbacks (r : Ref) (s : State) : State :=
  mkState (active s) (num_of_subscribers s) (Some r)
    (subscribe_listener s) (base s) (heap s) (next_ref s)
    (peer_subscribe s) (peer_unsubscribe s).

Definition set_subscribe_listener (c : PyClass) (s : State) : State :=
  mkState (active s) (num_of_subscribers s) (subs_changed_callbacks s)
    (Some c) (base s) (heap s) (next_ref s)
    (peer_subscribe s) (peer_unsubscribe s).

Definition set_base (b : Transport) (s : State) : State :=
  mkState (active s) (num_of_subscribers s) (subs_changed_callbacks s)
    (subscribe_listener s) b (heap s) (next_ref s)
    (peer_subscribe s) (peer_unsubscribe s).

Definition set_heap (h : Ref -> list Callback) (n : Ref) (s : State) : State :=
  mkState (active s) (num_of_subscribers s) (subs_changed_callbacks s)
    (subscribe_listener s) (base s) h n
    (peer_subscribe s) (peer_unsubscribe s).

Definition set_peer_subscribe (h : Handler) (s : State) : State :=
  mkState (active s) (num_of_subscribers s) (subs_changed_callbacks s)
    (subscribe_listener s) (base s) (heap s) (next_ref s)
    h (peer_unsubscribe s).

Definition set_peer_unsubscribe (h : Handler) (s : State) : State :=
  mkState (active s) (num_of_subscribers s) (subs_changed_callbacks s)
    (subscribe_listener s) (base s) (heap s) (next_ref s)
    (peer_subscribe s) h.

(** The list object at [r] with [l] stored in it. *)
Definition store (r : Ref) (l : list Callback) (h : Ref -> list Callback)
  : Ref -> list Callback :=
  fun r' => if Nat.eqb r' r then l else h r'.

(** ** The monad *)

(** What a method did: how it ended, the object it left, the calls it made. *)
Record Res (A : Type) : Type := mkRes {
  outcome : Outcome A;
  final : State;
  calls : list Call
}.
Arguments mkRes {A} _ _ _.
Arguments outcome {A} _.
Arguments final {A} _.
Arguments calls {A} _.

Definition M (A : Type) : Type := State -> Res A.

Definition ret {A} (a : A) : M A := fun s => mkRes (Returns a) s [].

Definition raise {A} (e : Exn) : M A := fun s => mkRes (Raises e) s [].

Definition bind {A C} (m : M A) (k : A -> M C) : M C :=
  fun s =>
    let r := m s in
    match outcome r with
    | Returns a =>
        let r' := k a (final r) in
        mkRes (outcome r') (final r') (calls r ++ calls r')
    | Raises e => mkRes (Raises e) (final r) (calls r)
    | OutOfFuel => mkRes OutOfFuel (final r) (calls r)
    end.

Definition lift {A} (x : Exn + A) : Outcome A :=
  match x with inl e => Raises e | inr a => Returns a end.

Definition modify (f : State -> State) : M unit :=
  fun s => mkRes (Returns tt) (f s) [].

(** [self.<attr>]: an [AttributeError] when the attribute is not set. *)
Definition getattr {A} (name : string) (field : State -> option A) : M A :=
  fun s =>
    match field s with
    | Some v => ret v s
    | None => raise (AttributeError name) s
    end.

End Object.

Arguments mkRes {B A} _ _ _.
Arguments outcome {B A} _.
Arguments final {B A} _.
Arguments calls {B A} _.

Declare Scope py_scope.
Delimit Scope py_scope with py.
Notation "x <- m ;; k" := (bind m (fun x => k))
  (at level 61, m at next level, right associativity) : py_scope.
Notation "m ;; k" := (bind m (fun _ => k))
  (at level 61, right associativity) : py_scope.

(** The code of the registered callbacks: [call_cb cb s] is [cb(self)] run on
    the object [s]; it may change the object and may raise. *)
Class Callbacks {B : RospyPublisher} : Type := {
  call_cb : Callback -> State -> (Exn + unit) * State
}.

Module DTPublisher.
Section Methods.
Context {B : RospyPublisher} {C : Callbacks}.
Open Scope py_scope.

(** [super(DTPublisher, self).__init__(args)] *)
Definition call_super_init (a : Args) : M unit :=
  fun s =>
    let (r, b) := super_init a (base s) in
    mkRes (lift r) (set_base b s) [SuperInit a].

(** [super(DTPublisher, self).publish(args)] *)
Definition call_super_publish (m : Msg) : M unit :=
  fun s =>
    let (r, b) := super_publish m (base s) in
    mkRes (lift r) (set_base b s) [SuperPublish m].

(** [self.get_num_connections()] *)
Definition call_get_num_connections : M Z :=
  fun s => mkRes (lift (get_num_connections (base s))) s [GetNumConnections].

(** [cb_fun(self)] *)
Definition invoke (cb : Callback) : M unit :=
  fun s =>
    let (r, s') := call_cb cb s in
    mkRes (lift r) s' [Invoke cb [Self]].

(** [list()]: a new, empty list object. *)
Definition new_list : M Ref :=
  fun s =>
    let r := next_ref s in
    mkRes (Returns r) (set_heap (store r [] (heap s)) (S r) s) [].

(** [for cb_fun in <list at r>: cb_fun(self)], from position [i] on.  The
    iterator reads the list object at each step, so it sees what a callback
    did to the list. *)
Fixpoint for_each (fuel : nat) (r : Ref) (i : nat) : M unit :=
  fun s =>
    match nth_error (heap s r) i, fuel with
    | None, _ => ret tt s
    | Some _, O => mkRes OutOfFuel s []
    | Some cb, S fuel' => (invoke cb ;; for_each fuel' r (S i)) s
    end.

(** [DTPublisher.cbChangeSubscribers(self, *args, **kwargs)] (lines 66-69). *)
Definition cbChangeSubscribers {X : Type} (fuel : nat) (_args : X) : M unit :=
  n <- call_get_num_connections ;;
  modify (set_num_of_subscribers (PyInt n)) ;;
  r <- getattr "subs_changed_callbacks" subs_changed_callbacks ;;
  for_each fuel r 0.

(** Lines 49-52 of [__init__]. *)
Definition link_subscribe_listener : M unit :=
  modify (set_subscribe_listener SubscribeListener) ;;
  modify (set_peer_subscribe bound_cbChangeSubscribers) ;;
  modify (set_peer_unsubscribe bound_cbChangeSubscribers).

(** [DTPublisher.__init__(self, *args, **kwargs)] (lines 40-52). *)
Definition __init__ (fuel : nat) (a : Args) : M unit :=
  call_super_init a ;;
  modify (set_active (PyBool true)) ;;
  modify (set_num_of_subscribers PyNone) ;;
  cbChangeSubscribers fuel tt ;;
  r <- new_list ;;
  modify (set_subs_changed_callbacks r) ;;
  link_subscribe_listener.

(** [DTPublisher.publish(self, *args, **kwargs)] (lines 54-64). *)
Definition publish (m : Msg) : M unit :=
  a <- getattr "active" active ;;
  if truthy a then call_super_publish m else ret tt.

(** The property [DTPublisher.any_subscribers] (lines 71-73). *)
Definition any_subscribers (v : PyVersion) : M bool :=
  n <- getattr "num_of_subscribers" num_of_subscribers ;;
  fun s => mkRes (lift (gt_zero v n)) s [].

(** The two uses of the attributes the docstring gives to clients:
    [P.active = v] (line 29) and [P.subs_changed_callbacks.append(cb)]
    (line 32). *)
Definition assign_active (v : PyVal) : M unit :=
  modify (set_active v).


End Methods.
End DTPublisher.


(** ** Vocabulary of the properties *)

Section Vocabulary.
Context {B : RospyPublisher} {C : Callbacks}.



(** The callback leaves the attribute [num_of_subscribers] alone. *)
Definition keeps_count (cb : Callback) : Prop :=
  forall s, num_of_subscribers (snd (call_cb cb s)) = num_of_subscribers s.

(** The object after the callbacks [cbs] ran on it one after the other, each
    on what its predecessor left. *)
Definition run_callbacks (cbs : list Callback) (s : State) : State :=
  fold_left (fun s' cb => snd (call_cb cb s')) cbs s.


End Vocabulary.

(** ** A loopback transport and three callbacks, to run the methods on *)

Module Loopback.

Record Link : Type := mkLink {
  topic : string;
  connections : Z;
  sent : list string;
  down : bool
}.

(** A topic needs a name; a message is sent unless the link is down. *)
#[export] Instance transport : RospyPublisher := {
  Transport := Link;
  Args := string;
  Msg := string;
  super_init a t :=
    if String.eqb a "" then (inl (External "ROSException"), t)
    else (inr tt, mkLink a (connections t) (sent t) (down t));
  super_publish m t :=
    if down t then (inl (External "ROSException"), t)
    else (inr tt, mkLink (topic t) (connections t) (sent t ++ [m]) (down t));
  get_num_connections t := inr (connections t)
}.

(** Callback 1 switches the publisher off, callback 2 raises, callback 3
    appends callback 0 to the publisher's list, any other callback does
    nothing. *)
#[export] Instance callbacks : Callbacks := {
  call_cb cb s :=
    match cb with
    | 1 => (inr tt, set_active (PyBool false) s)
    | 2 => (inl (External "ValueError"), s)
    | 3 =>
        match subs_changed_callbacks s with
        | Some r =>
            (inr tt, set_heap (store r (heap s r ++ [0]) (heap s)) (next_ref s) s)
        | None => (inl (AttributeError "subs_changed_callbacks"), s)
        end
    | _ => (inr tt, s)
    end
}.

(** An object on which no [__init__] has run yet. *)
Definition blank (t : Link) : State :=
  mkState None None None None t (fun _ => []) 0
    listener_default listener_default.

(** An object with every attribute of the class set, [cbs] in its list. *)
Definition ready (a : bool) (n : Z) (cbs : list Callback) (t : Link) : State :=
  mkState (Some (PyBool a)) (Some (PyInt n)) (Some 0) None t
    (store 0 cbs (fun _ => [])) 1 listener_default listener_default.

Definition idle : Link := mkLink "" 0 [] false.
Definition up : Link := mkLink "chatter" 3 [] false.
Definition broken : Link := mkLink "chatter" 3 [] true.

End Loopback.


(** ** A client of the publisher *)

Section Client.
Context {B : RospyPublisher} {C : Callbacks}.
Open Scope py_scope.



(** A call to the connection count or to a callback with the publisher. *)
Definition count_or_callback (c : Call) : Prop :=
  c = GetNumConnections \/ exists cb, c = Invoke cb [Self].

(** The callback changes nothing of the object. *)
Definition observes_only (cb : Callback) : Prop :=
  forall s, snd (call_cb cb s) = s.

(** The callback returns and leaves the list object at [r] longer than it
    found it. *)
Definition grows_list (r : Ref) (cb : Callback) : Prop :=
  forall s,
    fst (call_cb cb s) = inr tt /\
    length (heap s r) < length (heap (snd (call_cb cb s)) r).

End Client.

(** ** A handle that may be unregistered *)

Module Detached.

(** The connection count of a registered handle; [None] once the handle is
    unregistered, when asking for the count raises. *)
#[export] Instance transport : RospyPublisher := {
  Transport := option Z;
  Args := unit;
  Msg := string;
  super_init _ t := (inr tt, t);
  super_publish _ t := (inr tt, t);
  get_num_connections t :=
    match t with
    | Some n => inr n
    | None => inl (External "ROSException")
    end
}.

(** Callbacks that do nothing. *)
#[export] Instance callbacks : Callbacks := {
  call_cb _ s := (inr tt, s)
}.

Definition blank (t : option Z) : State :=
  mkState None None None None t (fun _ => []) 0
    listener_default listener_default.

Definition ready (n : Z) (cbs : list Callback) (t : option Z) : State :=
  mkState (Some (PyBool true)) (Some (PyInt n)) (Some 0) None t
    (store 0 cbs (fun _ => [])) 1 listener_default listener_default.

End Detached.

(** ** Callbacks that register themselves again *)

Module Restless.

(** Every callback appends itself to the list object at address 0. *)
Definition callbacks : Callbacks (B := Loopback.transport) := {|
  call_cb cb s :=
    (inr tt, set_heap (store 0 (heap s 0 ++ [cb]) (heap s)) (next_ref s) s)
|}.

End Restless.


(** ** Callbacks that change what the handler works on *)

Module Meddling.

(** Callback 9 assigns 99 to [num_of_subscribers]; any other callback removes
    the first entry of the publisher's callback list
    ([P.subs_changed_callbacks.pop(0)]). *)
Definition callbacks : Callbacks (B := Loopback.transport) := {|
  call_cb cb s :=
    match cb with
    | 9 => (inr tt, set_num_of_subscribers (PyInt 99) s)
    | _ =>
        match subs_changed_callbacks s with
        | Some r =>
            match heap s r with
            | [] => (inl (External "IndexError"), s)
            | _ :: rest =>
                (inr tt, set_heap (store r rest (heap s)) (next_ref s) s)
            end
        | None => (inl (AttributeError "subs_changed_callbacks"), s)
        end
    end
|}.

End Meddling.

(** ** Addresses in use *)

Section Allocation.
Context {B : RospyPublisher} {C : Callbacks}.



End Allocation.


(** * Properties *)

Import DTPublisher.

Section Loop.
Context {B : RospyPublisher} {C : Callbacks}.



Lemma res_eta {A} (r : Res A) : mkRes (outcome r) (final r) (calls r) = r.
Proof. destruct r; reflexivity. Qed.

Lemma invoke_eq cb s :
  invoke cb s =
    mkRes (lift (fst (call_cb cb s))) (snd (call_cb cb s)) [Invoke cb [Self]].
Proof. unfold invoke. destruct (call_cb cb s); reflexivity. Qed.




Lemma run_callbacks_app pre post s :
  run_callbacks (pre ++ post) s = run_callbacks post (run_callbacks pre s).
Proof. unfold run_callbacks. apply fold_left_app. Qed.



(** The loop never writes [num_of_subscribers] itself. *)
Lemma for_each_keeps_count r :
  (forall cb, keeps_count cb) ->
  forall fuel i s,
    num_of_subscribers (final (for_each fuel r i s)) = num_of_subscribers s.
Proof.
  intros Hkeep. induction fuel as [|fuel IH]; intros i s; simpl.
  - destruct (nth_error (heap s r) i); reflexivity.
  - destruct (nth_error (heap s r) i) as [cb|]; [|reflexivity].
    unfold bind. rewrite invoke_eq. simpl.
    destruct (fst (call_cb cb s)) as [e|[]]; simpl.
    + apply Hkeep.
    + rewrite IH. apply Hkeep.
Qed.



(** [cbChangeSubscribers], up to its loop. *)
Lemma cbChangeSubscribers_eq {X} fuel (a : X) s n r :
  get_num_connections (base s) = inr n ->
  subs_changed_callbacks s = Some r ->
  cbChangeSubscribers fuel a s =
    mkRes (outcome (for_each fuel r 0 (set_num_of_subscribers (PyInt n) s)))
      (final (for_each fuel r 0 (set_num_of_subscribers (PyInt n) s)))
      (GetNumConnections :: calls (for_each fuel r 0 (set_num_of_subscribers (PyInt n) s))).
Proof.
  intros Hn Hr. unfold cbChangeSubscribers, bind, call_get_num_connections,
    modify, getattr. simpl. rewrite Hn. simpl. rewrite Hr. reflexivity.
Qed.

(** [cbChangeSubscribers] on an object without the callback list. *)
Lemma cbChangeSubscribers_no_list {X} fuel (a : X) s n :
  get_num_connections (base s) = inr n ->
  subs_changed_callbacks s = None ->
  cbChangeSubscribers fuel a s =
    mkRes (Raises (AttributeError "subs_changed_callbacks"))
      (set_num_of_subscribers (PyInt n) s) [GetNumConnections].
Proof.
  intros Hn Hr. unfold cbChangeSubscribers, bind, call_get_num_connections,
    modify, getattr. simpl. rewrite Hn. simpl. rewrite Hr. reflexivity.
Qed.

(** [__init__] when the base class accepts the arguments. *)
Lemma init_eq fuel a s t n :
  subs_changed_callbacks s = None ->
  super_init a (base s) = (inr tt, t) ->
  get_num_connections t = inr n ->
  __init__ fuel a s =
    mkRes (Raises (AttributeError "subs_changed_callbacks"))
      (set_num_of_subscribers (PyInt n) (set_active (PyBool true) (set_base t s)))
      [SuperInit a; GetNumConnections].
Proof.
  intros Hr Ha Hn. unfold __init__.
  assert (H1 : call_super_init a s = mkRes (Returns tt) (set_base t s) [SuperInit a]).
  { unfold call_super_init. rewrite Ha. reflexivity. }
  unfold bind at 1. rewrite H1. simpl.
  unfold bind at 1. simpl. unfold bind at 1. simpl.
  unfold bind at 1.
  rewrite (cbChangeSubscribers_no_list fuel tt _ n); [reflexivity|exact Hn|exact Hr].
Qed.

End Loop.


Section Contract.
Context {B : RospyPublisher} {C : Callbacks}.

(** C1. [publish] is gated by [active] alone: when [active] is [True] the
    call goes to the base class's [publish] exactly once, with the same
    message, and ends as that call ends; when [active] is [False] nothing is
    called, nothing is raised and the object is left as it was. *)
Theorem publish_gated (s : State) (m : Msg) (b : bool) :
  active s = Some (PyBool b) ->
  publish m s =
    if b
    then mkRes (lift (fst (super_publish m (base s))))
           (set_base (snd (super_publish m (base s))) s) [SuperPublish m]
    else mkRes (Returns tt) s [].
Proof.
  intros Ha. unfold publish, bind, getattr. rewrite Ha. simpl.
  destruct b; simpl.
  - unfold call_super_publish. destruct (super_publish m (base s)); reflexivity.
  - reflexivity.
Qed.


(** C5. [any_subscribers] is the truth of [num_of_subscribers > 0]: [False]
    at 0, [True] from 1 on; it calls nothing and leaves the object as it was. *)
Theorem any_subscribers_reads_count (v : PyVersion) (s : State) (n : Z) :
  num_of_subscribers s = Some (PyInt n) ->
  any_subscribers v s = mkRes (Returns (0 <? n)%Z) s [] /\
  (n = 0%Z -> any_subscribers v s = mkRes (Returns false) s []) /\
  ((1 <= n)%Z -> any_subscribers v s = mkRes (Returns true) s []).
Proof.
  intros Hn.
  assert (H : any_subscribers v s = mkRes (Returns (0 <? n)%Z) s []).
  { unfold any_subscribers, bind, getattr. rewrite Hn. reflexivity. }
  split; [exact H|]. split; intros Hc; rewrite H.
  - subst n. reflexivity.
  - replace (0 <? n)%Z with true; [reflexivity|].
    symmetry. apply Z.ltb_lt. lia.
Qed.

(** C6. With [active] set to [False] before a first [publish] and back to
    [True] before a second, the second call alone reaches the base class. *)
Theorem toggle_forwards_second_only (s : State) (m1 m2 : Msg) :
  (assign_active (PyBool false) ;; publish m1 ;;
   assign_active (PyBool true) ;; publish m2)%py s =
    mkRes (lift (fst (super_publish m2 (base s))))
      (set_base (snd (super_publish m2 (base s))) (set_active (PyBool true) s))
      [SuperPublish m2].
Proof.
  unfold bind, assign_active, modify, publish, getattr, bind. simpl.
  unfold call_super_publish. simpl.
  destruct (super_publish m2 (base s)) as [[e|[]] t]; reflexivity.
Qed.


(** C8. An error the base class's [publish] raises comes out of [publish]
    as it was raised; the base class was called once and nothing else was
    tried. *)
Theorem publish_propagates_transport_error
    (s : State) (m : Msg) (e : Exn) (t : Transport) :
  active s = Some (PyBool true) ->
  super_publish m (base s) = (inl e, t) ->
  publish m s = mkRes (Raises e) (set_base t s) [SuperPublish m].
Proof.
  intros Ha Hp. unfold publish, bind, getattr. rewrite Ha. simpl.
  unfold call_super_publish. rewrite Hp. reflexivity.
Qed.


(** C10. Construction calls [cbChangeSubscribers] before it assigns
    [subs_changed_callbacks]: on arguments the base class accepts, the loop
    of that call reads an attribute that is not there, and [__init__] ends in
    the [AttributeError], the count refreshed and the list never assigned. *)
Theorem init_reads_callbacks_before_assignment
    (fuel : nat) (a : Args) (s : State) (t : Transport) (n : Z) :
  subs_changed_callbacks s = None ->
  super_init a (base s) = (inr tt, t) ->
  get_num_connections t = inr n ->
  __init__ fuel a s =
    mkRes (Raises (AttributeError "subs_changed_callbacks"))
      (set_num_of_subscribers (PyInt n) (set_active (PyBool true) (set_base t s)))
      [SuperInit a; GetNumConnections] /\
  subs_changed_callbacks (final (__init__ fuel a s)) = None.
Proof.
  intros Hr Ha Hn. rewrite (init_eq fuel a s t n Hr Ha Hn).
  split; [reflexivity|exact Hr].
Qed.

End Contract.


(** ** The methods run on the loopback transport *)

Section Runs.
Import Loopback.

(** C3. Construction on arguments the base class accepts does not complete:
    [__init__] raises [AttributeError] for [subs_changed_callbacks], and the
    object it leaves has no callback list. *)
Theorem init_fails_on_valid_arguments (fuel : nat) :
  super_init "chatter" idle = (inr tt, mkLink "chatter" 0 [] false) /\
  outcome (__init__ fuel "chatter" (blank idle)) =
    Raises (AttributeError "subs_changed_callbacks") /\
  active (final (__init__ fuel "chatter" (blank idle))) = Some (PyBool true) /\
  num_of_subscribers (final (__init__ fuel "chatter" (blank idle))) = Some (PyInt 0) /\
  subs_changed_callbacks (final (__init__ fuel "chatter" (blank idle))) = None /\
  calls (__init__ fuel "chatter" (blank idle)) =
    [SuperInit "chatter"; GetNumConnections].
Proof. repeat apply conj; reflexivity. Qed.

(** C4. Construction does not get as far as its listener lines: after
    [__init__] the attribute [subscribe_listener] is not set and the class
    attributes of [rospy.SubscribeListener] are the class's own.  The lines
    themselves (49-52), on any object, call nothing of the base class and
    leave the inherited part of the object as it was. *)
Theorem listener_not_registered_with_transport (fuel : nat) :
  subscribe_listener (final (__init__ fuel "chatter" (blank idle))) = None /\
  peer_subscribe (final (__init__ fuel "chatter" (blank idle))) = listener_default /\
  peer_unsubscribe (final (__init__ fuel "chatter" (blank idle))) = listener_default /\
  (forall (B : RospyPublisher) (s : State),
     calls (link_subscribe_listener s) = [] /\
     base (final (link_subscribe_listener s)) = base s).
Proof. repeat apply conj; try reflexivity. intros B s. split; reflexivity. Qed.

(** The loop reads the list object as it goes: a callback appended during a
    notification is invoked in that same notification. *)
Example appended_callback_is_invoked :
  calls (cbChangeSubscribers 2 tt (ready true 0 [3] up)) =
    [GetNumConnections; Invoke 3 [Self]; Invoke 0 [Self]] /\
  outcome (cbChangeSubscribers 1 tt (ready true 0 [3] up)) = OutOfFuel.
Proof. split; reflexivity. Qed.

Lemma publish_gated_witness :
  publish "hello" (ready true 3 [] up) =
    mkRes (Returns tt)
      (set_base (mkLink "chatter" 3 ["hello"] false) (ready true 3 [] up))
      [SuperPublish "hello"] /\
  publish "hello" (ready false 3 [] up) = mkRes (Returns tt) (ready false 3 [] up) [].
Proof.
  split.
  - exact (publish_gated (ready true 3 [] up) "hello" true eq_refl).
  - exact (publish_gated (ready false 3 [] up) "hello" false eq_refl).
Defined.


Lemma any_subscribers_reads_count_witness :
  any_subscribers Python3 (ready true 0 [] up) =
    mkRes (Returns false) (ready true 0 [] up) [] /\
  any_subscribers Python3 (ready true 2 [] up) =
    mkRes (Returns true) (ready true 2 [] up) [].
Proof.
  split.
  - apply (any_subscribers_reads_count Python3 (ready true 0 [] up) 0 eq_refl).
    reflexivity.
  - apply (any_subscribers_reads_count Python3 (ready true 2 [] up) 2 eq_refl).
    lia.
Defined.


Lemma publish_propagates_transport_error_witness :
  publish "hello" (ready true 3 [] broken) =
    mkRes (Raises (External "ROSException")) (ready true 3 [] broken)
      [SuperPublish "hello"].
Proof.
  exact (publish_propagates_transport_error (ready true 3 [] broken) "hello"
           (External "ROSException") broken eq_refl eq_refl).
Defined.




Lemma init_reads_callbacks_before_assignment_witness :
  __init__ 0 "chatter" (blank idle) =
    mkRes (Raises (AttributeError "subs_changed_callbacks"))
      (set_num_of_subscribers (PyInt 0)
         (set_active (PyBool true) (set_base (mkLink "chatter" 0 [] false) (blank idle))))
      [SuperInit "chatter"; GetNumConnections] /\
  subs_changed_callbacks (final (__init__ 0 "chatter" (blank idle))) = None.
Proof.
  exact (init_reads_callbacks_before_assignment 0 "chatter" (blank idle)
           (mkLink "chatter" 0 [] false) 0 eq_refl eq_refl eq_refl).
Defined.

End Runs.


(** * Further properties of the methods *)

Section Further.
Context {B : RospyPublisher} {C : Callbacks}.

Lemma call_super_init_eq a s :
  call_super_init a s =
    mkRes (lift (fst (super_init a (base s))))
      (set_base (snd (super_init a (base s))) s) [SuperInit a].
Proof. unfold call_super_init. destruct (super_init a (base s)); reflexivity. Qed.

Lemma init_base_error fuel a s e t :
  super_init a (base s) = (inl e, t) ->
  __init__ fuel a s = mkRes (Raises e) (set_base t s) [SuperInit a].
Proof.
  intros Ha. unfold __init__, bind at 1.
  rewrite call_super_init_eq, Ha. reflexivity.
Qed.

Lemma cbChangeSubscribers_count_error {X} fuel (a : X) s e :
  get_num_connections (base s) = inl e ->
  cbChangeSubscribers fuel a s = mkRes (Raises e) s [GetNumConnections].
Proof.
  intros Hn. unfold cbChangeSubscribers, bind, call_get_num_connections.
  simpl. rewrite Hn. reflexivity.
Qed.

Lemma init_count_error fuel a s t e :
  super_init a (base s) = (inr tt, t) ->
  get_num_connections t = inl e ->
  __init__ fuel a s =
    mkRes (Raises e)
      (set_num_of_subscribers PyNone (set_active (PyBool true) (set_base t s)))
      [SuperInit a; GetNumConnections].
Proof.
  intros Ha Hn. unfold __init__.
  unfold bind at 1. rewrite call_super_init_eq, Ha. simpl.
  unfold bind at 1. simpl. unfold bind at 1. simpl. unfold bind at 1.
  rewrite (cbChangeSubscribers_count_error fuel tt _ e); [reflexivity|exact Hn].
Qed.

(** The loop calls callbacks and nothing else. *)
Lemma for_each_calls r :
  forall fuel i s, Forall count_or_callback (calls (for_each fuel r i s)).
Proof.
  induction fuel as [|fuel IH]; intros i s; simpl.
  - destruct (nth_error (heap s r) i); constructor.
  - destruct (nth_error (heap s r) i) as [cb|]; [|constructor].
    unfold bind. rewrite invoke_eq. simpl.
    destruct (fst (call_cb cb s)) as [e|[]]; simpl.
    + constructor; [right; exists cb; reflexivity|constructor].
    + constructor; [right; exists cb; reflexivity|apply IH].
Qed.

(** The loop writes nothing of its own. *)
Lemma for_each_observers r :
  (forall cb, observes_only cb) ->
  forall fuel i s, final (for_each fuel r i s) = s.
Proof.
  intros Hobs. induction fuel as [|fuel IH]; intros i s; simpl.
  - destruct (nth_error (heap s r) i); reflexivity.
  - destruct (nth_error (heap s r) i) as [cb|]; [|reflexivity].
    unfold bind. rewrite invoke_eq. simpl. rewrite (Hobs cb s).
    destruct (fst (call_cb cb s)) as [e|[]]; simpl; [reflexivity|apply IH].
Qed.

(** The loop over a list that every call makes longer does not come to its
    end. *)
Lemma for_each_grows r :
  (forall cb, grows_list r cb) ->
  forall fuel i s,
    i < length (heap s r) -> outcome (for_each fuel r i s) = OutOfFuel.
Proof.
  intros Hgrow. induction fuel as [|fuel IH]; intros i s Hi; simpl.
  - destruct (nth_error (heap s r) i) eqn:E; [reflexivity|].
    apply nth_error_None in E. lia.
  - destruct (nth_error (heap s r) i) as [cb|] eqn:E.
    + destruct (Hgrow cb s) as [Hret Hlen].
      unfold bind. rewrite invoke_eq. simpl. rewrite Hret. simpl.
      apply IH. lia.
    + apply nth_error_None in E. lia.
Qed.

Lemma publish_eq m s :
  publish m s =
    match active s with
    | Some v =>
        if truthy v
        then mkRes (lift (fst (super_publish m (base s))))
               (set_base (snd (super_publish m (base s))) s) [SuperPublish m]
        else mkRes (Returns tt) s []
    | None => mkRes (Raises (AttributeError "active")) s []
    end.
Proof.
  unfold publish, bind, getattr. destruct (active s) as [v|]; simpl; [|reflexivity].
  destruct (truthy v); simpl; [|reflexivity].
  unfold call_super_publish. destruct (super_publish m (base s)); reflexivity.
Qed.



Lemma lift_not_out_of_fuel {A} (x : Exn + A) : lift x <> OutOfFuel.
Proof. destruct x; discriminate. Qed.

Lemma state_eta (s : State) : set_base (base s) s = s.
Proof. destruct s; reflexivity. Qed.

(** X1. Arguments the base class refuses: [__init__] raises what the base
    constructor raised, after that one call, and assigns no attribute. *)
Theorem init_propagates_constructor_error
    (fuel : nat) (a : Args) (s : State) (e : Exn) (t : Transport) :
  super_init a (base s) = (inl e, t) ->
  __init__ fuel a s = mkRes (Raises e) (set_base t s) [SuperInit a].
Proof. apply init_base_error. Qed.

(** X2. A count query that raises during construction: [__init__] raises
    the same exception, with [active] already [True] and
    [num_of_subscribers] still [None]. *)
Theorem init_propagates_count_error
    (fuel : nat) (a : Args) (s : State) (t : Transport) (e : Exn) :
  super_init a (base s) = (inr tt, t) ->
  get_num_connections t = inl e ->
  __init__ fuel a s =
    mkRes (Raises e)
      (set_num_of_subscribers PyNone (set_active (PyBool true) (set_base t s)))
      [SuperInit a; GetNumConnections].
Proof. apply init_count_error. Qed.

(** X3. On an object that has no callback list yet, [__init__] never
    returns, whatever the base class does: it ends in an exception, invokes
    no callback, creates no list and does not get to its listener lines. *)
Theorem init_never_completes (fuel : nat) (a : Args) (s : State) :
  subs_changed_callbacks s = None ->
  (exists e, outcome (__init__ fuel a s) = Raises e) /\
  subs_changed_callbacks (final (__init__ fuel a s)) = None /\
  subscribe_listener (final (__init__ fuel a s)) = subscribe_listener s /\
  peer_subscribe (final (__init__ fuel a s)) = peer_subscribe s /\
  peer_unsubscribe (final (__init__ fuel a s)) = peer_unsubscribe s /\
  heap (final (__init__ fuel a s)) = heap s /\
  (calls (__init__ fuel a s) = [SuperInit a] \/
   calls (__init__ fuel a s) = [SuperInit a; GetNumConnections]).
Proof.
  intros Hr.
  destruct (super_init a (base s)) as [[e|[]] t] eqn:Ha.
  - rewrite (init_base_error fuel a s e t Ha). simpl.
    split; [exists e; reflexivity|]. auto 10.
  - destruct (get_num_connections t) as [e|n] eqn:Hn.
    + rewrite (init_count_error fuel a s t e Ha Hn). simpl.
      split; [exists e; reflexivity|]. auto 10.
    + rewrite (init_eq fuel a s t n Hr Ha Hn). simpl.
      split; [eexists; reflexivity|]. auto 10.
Qed.


(** X5. [publish] goes by the truth value of [active], whatever was
    assigned to it: [None], [False] and [0] suppress the call without an
    error, [True] and any other integer let it through. *)
Theorem publish_by_truth_value (s : State) (m : Msg) (v : PyVal) :
  active s = Some v ->
  publish m s =
    if truthy v
    then mkRes (lift (fst (super_publish m (base s))))
           (set_base (snd (super_publish m (base s))) s) [SuperPublish m]
    else mkRes (Returns tt) s [].
Proof. intros Ha. rewrite publish_eq, Ha. reflexivity. Qed.

(** X6. [publish] leaves every attribute, every list and the listener class
    as they were: only the inherited part of the object can change, and the
    one call it can make is the base class's [publish] with its message. *)
Theorem publish_touches_only_transport (s : State) (m : Msg) :
  final (publish m s) = set_base (base (final (publish m s))) s /\
  (calls (publish m s) = [] \/ calls (publish m s) = [SuperPublish m]) /\
  outcome (publish m s) <> OutOfFuel.
Proof.
  rewrite publish_eq. destruct (active s) as [v|]; [destruct (truthy v)|]; simpl.
  - split; [reflexivity|]. split; [right; reflexivity|apply lift_not_out_of_fuel].
  - rewrite state_eta. split; [reflexivity|]. split; [left; reflexivity|discriminate].
  - rewrite state_eta. split; [reflexivity|]. split; [left; reflexivity|discriminate].
Qed.

(** X7. [any_subscribers] only reads: whatever [num_of_subscribers] holds
    and however the comparison ends, the object is left as it was and nothing
    is called. *)
Theorem any_subscribers_only_reads (v : PyVersion) (s : State) :
  final (any_subscribers v s) = s /\
  calls (any_subscribers v s) = [] /\
  outcome (any_subscribers v s) <> OutOfFuel.
Proof.
  unfold any_subscribers, bind, getattr.
  destruct (num_of_subscribers s) as [x|]; simpl.
  - destruct (gt_zero v x); simpl; repeat split; discriminate.
  - repeat split; discriminate.
Qed.

(** X8. A count query that raises ends the notification at once: the
    exception comes out, [num_of_subscribers] keeps its old value and no
    callback is invoked. *)
Theorem notification_propagates_count_error {X : Type}
    (fuel : nat) (a : X) (s : State) (e : Exn) :
  get_num_connections (base s) = inl e ->
  cbChangeSubscribers fuel a s = mkRes (Raises e) s [GetNumConnections].
Proof. apply cbChangeSubscribers_count_error. Qed.

(** X9. A notification on an object without a callback list raises
    [AttributeError] only after it has stored the new count. *)
Theorem notification_without_list {X : Type}
    (fuel : nat) (a : X) (s : State) (n : Z) :
  get_num_connections (base s) = inr n ->
  subs_changed_callbacks s = None ->
  cbChangeSubscribers fuel a s =
    mkRes (Raises (AttributeError "subs_changed_callbacks"))
      (set_num_of_subscribers (PyInt n) s) [GetNumConnections].
Proof. apply cbChangeSubscribers_no_list. Qed.

(** X10. Whatever the object and the callbacks: a notification begins with
    the count query, and every call it makes is that query or a callback
    called with the publisher; it never publishes. *)
Theorem notification_calls_shape {X : Type} (fuel : nat) (a : X) (s : State) :
  hd_error (calls (cbChangeSubscribers fuel a s)) = Some GetNumConnections /\
  Forall count_or_callback (calls (cbChangeSubscribers fuel a s)).
Proof.
  destruct (get_num_connections (base s)) as [e|n] eqn:Hn.
  - rewrite (cbChangeSubscribers_count_error fuel a s e Hn). simpl.
    split; [reflexivity|]. constructor; [left; reflexivity|constructor].
  - destruct (subs_changed_callbacks s) as [r|] eqn:Hr.
    + rewrite (cbChangeSubscribers_eq fuel a s n r Hn Hr). simpl.
      split; [reflexivity|]. constructor; [left; reflexivity|apply for_each_calls].
    + rewrite (cbChangeSubscribers_no_list fuel a s n Hn Hr). simpl.
      split; [reflexivity|]. constructor; [left; reflexivity|constructor].
Qed.

(** X11. The handler itself writes [num_of_subscribers] and nothing else:
    with callbacks that change nothing, the object after a notification is
    the object before it with the new count, however the notification
    ended. *)
Theorem notification_only_writes_count {X : Type}
    (fuel : nat) (a : X) (s : State) (n : Z) :
  get_num_connections (base s) = inr n ->
  (forall cb, observes_only cb) ->
  final (cbChangeSubscribers fuel a s) = set_num_of_subscribers (PyInt n) s.
Proof.
  intros Hn Hobs. destruct (subs_changed_callbacks s) as [r|] eqn:Hr.
  - rewrite (cbChangeSubscribers_eq fuel a s n r Hn Hr). simpl.
    apply for_each_observers. exact Hobs.
  - rewrite (cbChangeSubscribers_no_list fuel a s n Hn Hr). reflexivity.
Qed.

(** X12. After a notification, [any_subscribers] answers for the count the
    base class reported in it (the callbacks leaving the attribute alone),
    also when a callback ended the notification with an exception. *)
Theorem any_subscribers_after_notification {X : Type}
    (v : PyVersion) (fuel : nat) (a : X) (s : State) (n : Z) :
  get_num_connections (base s) = inr n ->
  (forall cb, keeps_count cb) ->
  any_subscribers v (final (cbChangeSubscribers fuel a s)) =
    mkRes (Returns (0 <? n)%Z) (final (cbChangeSubscribers fuel a s)) [].
Proof.
  intros Hn Hkeep.
  assert (Hc : num_of_subscribers (final (cbChangeSubscribers fuel a s)) =
               Some (PyInt n)).
  { destruct (subs_changed_callbacks s) as [r|] eqn:Hr.
    - rewrite (cbChangeSubscribers_eq fuel a s n r Hn Hr). simpl.
      rewrite (for_each_keeps_count r Hkeep). reflexivity.
    - rewrite (cbChangeSubscribers_no_list fuel a s n Hn Hr). reflexivity. }
  unfold any_subscribers, bind, getattr. rewrite Hc. reflexivity.
Qed.


(** X14. The loop follows the list as it grows: when every callback leaves
    the list longer than it found it, a notification on a non-empty list
    does not come to an end, whatever the fuel. *)
Theorem growing_list_never_finishes {X : Type}
    (fuel : nat) (a : X) (s : State) (r : Ref) (n : Z) :
  subs_changed_callbacks s = Some r ->
  get_num_connections (base s) = inr n ->
  (forall cb, grows_list r cb) ->
  heap s r <> [] ->
  outcome (cbChangeSubscribers fuel a s) = OutOfFuel.
Proof.
  intros Hr Hn Hgrow Hne.
  rewrite (cbChangeSubscribers_eq fuel a s n r Hn Hr). simpl.
  apply for_each_grows; [exact Hgrow|].
  simpl. destruct (heap s r); [contradiction|simpl; lia].
Qed.


End Further.

(** ** The further properties on the loopback transport *)

Section FurtherRuns.
Import Loopback.

Lemma init_propagates_constructor_error_witness :
  __init__ 0 "" (blank idle) =
    mkRes (Raises (External "ROSException")) (blank idle) [SuperInit ""].
Proof.
  exact (init_propagates_constructor_error 0 "" (blank idle)
           (External "ROSException") idle eq_refl).
Defined.

Lemma init_never_completes_witness :
  exists e, outcome (__init__ 3 "chatter" (blank up)) = Raises e.
Proof.
  exact (proj1 (init_never_completes 3 "chatter" (blank up) eq_refl)).
Defined.


Lemma publish_by_truth_value_witness :
  publish "hello" (set_active (PyInt 0) (ready true 3 [] up)) =
    mkRes (Returns tt) (set_active (PyInt 0) (ready true 3 [] up)) [] /\
  publish "hello" (set_active PyNone (ready true 3 [] up)) =
    mkRes (Returns tt) (set_active PyNone (ready true 3 [] up)) [] /\
  calls (publish "hello" (set_active (PyInt 5) (ready true 3 [] up))) =
    [SuperPublish "hello"].
Proof.
  split; [|split].
  - exact (publish_by_truth_value (set_active (PyInt 0) (ready true 3 [] up))
             "hello" (PyInt 0) eq_refl).
  - exact (publish_by_truth_value (set_active PyNone (ready true 3 [] up))
             "hello" PyNone eq_refl).
  - rewrite (publish_by_truth_value (B := transport)
               (set_active (PyInt 5) (ready true 3 [] up))
               "hello" (PyInt 5) eq_refl).
    reflexivity.
Defined.

Lemma notification_without_list_witness :
  cbChangeSubscribers 0 tt (blank up) =
    mkRes (Raises (AttributeError "subs_changed_callbacks"))
      (set_num_of_subscribers (PyInt 3) (blank up)) [GetNumConnections].
Proof.
  exact (notification_without_list 0 tt (blank up) 3 eq_refl eq_refl).
Defined.

Lemma any_subscribers_after_notification_witness :
  outcome (cbChangeSubscribers 3 tt (ready true 0 [0; 2; 1] up)) =
    Raises (External "ValueError") /\
  outcome (any_subscribers Python3
             (final (cbChangeSubscribers 3 tt (ready true 0 [0; 2; 1] up)))) =
    Returns true.
Proof.
  split; [reflexivity|].
  assert (Hkeep : forall cb, keeps_count cb).
  { intros [|[|[|[|cb]]]] s; simpl; try reflexivity.
    destruct (subs_changed_callbacks s); reflexivity. }
  rewrite (any_subscribers_after_notification (B := transport) Python3 3 tt
             (ready true 0 [0; 2; 1] up) 3 eq_refl Hkeep).
  reflexivity.
Defined.


Lemma growing_list_never_finishes_witness :
  outcome (cbChangeSubscribers (C := Restless.callbacks) 50 tt (ready true 0 [7] up)) =
    OutOfFuel.
Proof.
  assert (Hgrow : forall cb, grows_list (C := Restless.callbacks) 0 cb).
  { intros cb s. split; [reflexivity|].
    simpl. unfold store. simpl. rewrite length_app. simpl. lia. }
  assert (Hne : heap (ready true 0 [7] up) 0 <> []) by discriminate.
  exact (growing_list_never_finishes (C := Restless.callbacks) 50 tt
           (ready true 0 [7] up) 0 3 eq_refl eq_refl Hgrow Hne).
Defined.


End FurtherRuns.

(** ** The further properties on a handle that may be unregistered *)

Section DetachedRuns.

Lemma init_propagates_count_error_witness :
  __init__ (B := Detached.transport) (C := Detached.callbacks) 0 tt (Detached.blank None) =
    mkRes (Raises (External "ROSException"))
      (set_num_of_subscribers PyNone
         (set_active (PyBool true) (Detached.blank None)))
      [SuperInit (B := Detached.transport) tt; GetNumConnections].
Proof.
  exact (init_propagates_count_error (B := Detached.transport) (C := Detached.callbacks) 0 tt
           (Detached.blank None) None (External "ROSException") eq_refl eq_refl).
Defined.

Lemma notification_propagates_count_error_witness :
  cbChangeSubscribers (B := Detached.transport) (C := Detached.callbacks) 1 tt (Detached.ready 7 [0] None) =
    mkRes (Raises (External "ROSException")) (Detached.ready 7 [0] None)
      [GetNumConnections].
Proof.
  exact (notification_propagates_count_error (B := Detached.transport) (C := Detached.callbacks) 1 tt
           (Detached.ready 7 [0] None) (External "ROSException") eq_refl).
Defined.

Lemma notification_only_writes_count_witness :
  final (cbChangeSubscribers (B := Detached.transport) (C := Detached.callbacks) 2 tt
           (Detached.ready 7 [0; 1] (Some 4%Z))) =
    set_num_of_subscribers (PyInt 4) (Detached.ready 7 [0; 1] (Some 4%Z)).
Proof.
  exact (notification_only_writes_count (B := Detached.transport) (C := Detached.callbacks) 2 tt
           (Detached.ready 7 [0; 1] (Some 4%Z)) 4 eq_refl
           (fun cb s => eq_refl)).
Defined.

End DetachedRuns.
